(** * Order aggregation and persistence of ordering_app.py

    A shallow embedding of the core of the Streamlit ordering app:
    the order draft built in [main], the CSV ledger written by
    [save_order_to_csv] and read by [load_orders_dataframe], the deletion
    of a ledger row and the per-item aggregation done with pandas in [main].

    Modelling choices:
    - a Python [str] is its list of Unicode code points ([pystr]); string
      comparison is the lexicographic order of code points, as in Python;
    - the prices of [build_menu] are written as the decimals of the
      source ([Q]); the prices and line totals stored in the ledger are
      exact rationals [Q]; the draft summary of [main], whose values are
      never rounded, is computed in binary64 as Python does it (the
      kernel's primitive floats), each price being the binary64 value
      Python reads for its literal; quantities are integers [Z];
    - the CSV file [orders.csv] is the state of the program: it is absent,
      holds a readable table of records, or cannot be parsed by
      [pd.read_csv]; writing a table and reading it back gives the same
      records;
    - the current time [datetime.now()] is passed in as an argument. *)

From Stdlib Require Import QArith Qround ZArith NArith List String Ascii Bool Lia.
From Stdlib Require Import Sorting.Sorted Lqa.
From Stdlib Require PrimFloat Uint63 SpecFloat FloatOps.
Import ListNotations.

(** ** Python strings *)

Definition pystr := list N.

(** An ASCII literal as a Python string. *)
Definition of_ascii (s : string) : pystr :=
  map N_of_ascii (list_ascii_of_string s).

(** [str.isspace] on one code point. *)
Definition is_space (c : N) : bool :=
  (((9 <=? c) && (c <=? 13)) || ((28 <=? c) && (c <=? 32)) ||
   (c =? 133) || (c =? 160) || (c =? 5760) ||
   ((8192 <=? c) && (c <=? 8202)) || (c =? 8232) || (c =? 8233) ||
   (c =? 8239) || (c =? 8287) || (c =? 12288))%N.

Fixpoint lstrip (s : pystr) : pystr :=
  match s with
  | [] => []
  | c :: s' => if is_space c then lstrip s' else s
  end.

(** [str.strip()] *)
Definition strip (s : pystr) : pystr := rev (lstrip (rev (lstrip s))).

(** Python [==] on strings. *)
Fixpoint str_eqb (a b : pystr) : bool :=
  match a, b with
  | [], [] => true
  | x :: a', y :: b' => (x =? y)%N && str_eqb a' b'
  | _, _ => false
  end.

(** Python [<] on strings: lexicographic on code points. *)
Fixpoint str_ltb (a b : pystr) : bool :=
  match a, b with
  | [], [] => false
  | [], _ :: _ => true
  | _ :: _, [] => false
  | x :: a', y :: b' =>
      match N.compare x y with
      | Lt => true
      | Eq => str_ltb a' b'
      | Gt => false
      end
  end.

(** ** Numbers *)

(** [round(x, 2)] and the [:.2f] format: the exact value rounded to two
    decimals, ties to even. *)
Definition round2 (x : Q) : Q :=
  let y := x * 100 in
  let f := Qfloor y in
  let r := y - inject_Z f in
  let n :=
    if Qlt_le_dec (1#2) r then (f + 1)%Z
    else if Qeq_bool r (1#2) then (if Z.even f then f else (f + 1)%Z)
    else f in
  Qmake n 100.

(** [float(z)] for an integer [z] with [|z| < 2^63]: the nearest binary64
    value, as Python converts the [int] operand of [price * qty]. *)
Definition float_of_Z (z : Z) : PrimFloat.float :=
  if (z <? 0)%Z then PrimFloat.opp (PrimFloat.of_uint63 (Uint63.of_Z (- z)))
  else PrimFloat.of_uint63 (Uint63.of_Z z).

(** The float Python reads for a decimal literal [p]: the binary64 value
    nearest to [p], which is the correctly rounded quotient of its numerator
    by its denominator when both are exact floats (below 2^53). *)
Definition float_of_Q (q : Q) : PrimFloat.float :=
  PrimFloat.div (float_of_Z (Qnum q)) (float_of_Z (Zpos (Qden q))).

(** ** Data model *)

(** One row of [orders.csv]: columns name, item, price, quantity,
    line_total, timestamp. *)
Record ledger_record := mk_record {
  rec_name : pystr;
  rec_item : pystr;
  rec_price : Q;
  rec_quantity : Z;
  rec_line_total : Q;
  rec_timestamp : pystr
}.

(** [order_quantities]: a dict from [(item_name, price)] to a quantity,
    in insertion order. *)
Definition draft_key := (pystr * Q)%type.
Definition draft := list (draft_key * Z).

(** The state of [ORDERS_FILE]. *)
Inductive csv_file :=
| Absent
| Csv (rows : list ledger_record)
| Corrupt.

Inductive exn :=
| FileNotFoundError
| ParserError
| KeyError (label : nat).

Inductive res (A : Type) :=
| Ok (a : A)
| Raise (e : exn).
Arguments Ok {A} a.
Arguments Raise {A} e.

(** ** A state and exception monad over the CSV file *)

Definition io (A : Type) := csv_file -> res A * csv_file.

Definition ret {A} (a : A) : io A := fun f => (Ok a, f).

Definition bind {A B} (m : io A) (k : A -> io B) : io B :=
  fun f =>
    match m f with
    | (Ok a, f') => k a f'
    | (Raise e, f') => (Raise e, f')
    end.

Notation "x <- m ;; k" := (bind m (fun x => k))
  (at level 61, m at next level, right associativity).
Notation "m ;;; k" := (bind m (fun _ => k))
  (at level 61, right associativity).

Definition raise {A} (e : exn) : io A := fun f => (Raise e, f).

(** [try: m except Exception: h] *)
Definition try_except {A} (m : io A) (h : exn -> io A) : io A :=
  fun f =>
    match m f with
    | (Raise e, f') => h e f'
    | r => r
    end.

(** [os.path.exists(ORDERS_FILE)] *)
Definition path_exists : io bool :=
  fun f => (Ok match f with Absent => false | _ => true end, f).

(** [pd.read_csv(ORDERS_FILE)] *)
Definition read_csv : io (list ledger_record) :=
  fun f =>
    match f with
    | Absent => (Raise FileNotFoundError, f)
    | Csv rs => (Ok rs, f)
    | Corrupt => (Raise ParserError, f)
    end.

(** [df.to_csv(ORDERS_FILE, index=False)]: the whole file is replaced. *)
Definition to_csv (rs : list ledger_record) : io unit :=
  fun _ => (Ok tt, Csv rs).

(** ** save_order_to_csv *)

(** The rows built by the loop of [save_order_to_csv]. *)
Fixpoint order_rows (name timestamp : pystr) (d : draft) : list ledger_record :=
  match d with
  | [] => []
  | ((item_name, price), qty) :: d' =>
      if (qty <=? 0)%Z then order_rows name timestamp d'
      else {| rec_name := name; rec_item := item_name; rec_price := price;
              rec_quantity := qty;
              rec_line_total := round2 (price * inject_Z qty);
              rec_timestamp := timestamp |}
           :: order_rows name timestamp d'
  end.

Definition save_order_to_csv (name timestamp : pystr) (d : draft) : io unit :=
  let rows := order_rows name timestamp d in
  match rows with
  | [] => ret tt
  | _ =>
      ex <- path_exists ;;
      if ex then
        existing <- read_csv ;;
        to_csv (existing ++ rows)
      else to_csv rows
  end.

(** ** load_orders_dataframe *)

Definition load_orders_dataframe : io (option (list ledger_record)) :=
  ex <- path_exists ;;
  if ex then
    try_except (rs <- read_csv ;; ret (Some rs)) (fun _ => ret None)
  else ret None.

(** ** The order draft of [main] *)

(** [order_quantities[(item_name, price)] += qty] on a [defaultdict(int)]:
    an existing key keeps its place, a new key is added at the end. *)
Fixpoint add_qty (k : draft_key) (q : Z) (d : draft) : draft :=
  match d with
  | [] => [(k, (0 + q)%Z)]
  | (k', v) :: d' =>
      if str_eqb (fst k') (fst k) && Qeq_bool (snd k') (snd k)
      then (k', (v + q)%Z) :: d'
      else (k', v) :: add_qty k q d'
  end.

(** The menu returned by [build_menu]: categories in order, each with its
    [(item_name, price)] list. *)
Definition menu := list (pystr * list (pystr * Q)).

(** The loop of [main] over the expanders: [number_input category item]
    is the value of the widget keyed [f"qty_{category}_{item_name}"]. *)
Definition collect_quantities (m : menu) (number_input : pystr -> pystr -> Z)
  : draft :=
  fold_left
    (fun d '(category, items) =>
       fold_left
         (fun d '(item_name, price) =>
            let qty := number_input category item_name in
            if (qty =? 0)%Z then d else add_qty (item_name, price) qty d)
         items d)
    m [].

(** The "Riepilogo ordine" block: [None] when [order_quantities] is empty
    (an info message is shown), otherwise the summary lines
    [(item_name, qty, line_total)] and the total, in binary64:
    [total = 0.0], [line_total = price * qty], [total += line_total]. *)
Definition summarize_draft (d : draft)
  : option (list (pystr * Z * PrimFloat.float) * PrimFloat.float) :=
  match d with
  | [] => None
  | _ :: _ =>
      Some (fold_left
              (fun '(lines, total) '((item_name, price), qty) =>
                 if (qty <=? 0)%Z then (lines, total)
                 else let line_total :=
                        PrimFloat.mul (float_of_Q price) (float_of_Z qty) in
                      (lines ++ [(item_name, qty, line_total)],
                       PrimFloat.add total line_total))
              d ([], float_of_Z 0))
  end.

(** ** Messages shown by [main] *)

Inductive msg :=
| Info (text : string)
| Warning (text : string)
| Success (text : string).

(** The "Invia ordine" button. *)
Definition submit (name timestamp : pystr) (d : draft) : io msg :=
  match strip name with
  | [] => ret (Warning "Per inviare l'ordine devi inserire il tuo nome.")
  | _ :: _ =>
      match d with
      | [] => ret (Warning "Seleziona almeno un prodotto prima di inviare l'ordine.")
      | _ :: _ =>
          save_order_to_csv (strip name) timestamp d ;;;
          ret (Success "Ordine inviato! Grazie per la tua scelta.")
      end
  end.

(** ** Deleting a row *)

(** [df_orders.drop(selected).reset_index(drop=True)] followed by
    [df_orders.to_csv(ORDERS_FILE, index=False)]. A frame read by
    [pd.read_csv] carries the labels [0 .. n-1]; [drop] removes the row
    with label [selected] and raises [KeyError] when no row has it. *)
Definition delete_row (df : list ledger_record) (selected : nat) : io unit :=
  let labels := seq 0 (List.length df) in
  if existsb (Nat.eqb selected) labels then
    to_csv (map snd (filter (fun '(l, _) => negb (Nat.eqb l selected))
                            (combine labels df)))
  else raise (KeyError selected).

(** ** Per-item aggregation *)

(** A row of [agg]: item, quantita, totale. *)
Definition group := (pystr * Z * Q)%type.

Definition group_item (g : group) : pystr := let '(k, _, _) := g in k.
Definition group_total (g : group) : Q := let '(_, _, t) := g in t.

(** One record added to the groups of [df.groupby("item")], whose keys
    are kept sorted (pandas' default [sort=True]); sums start at 0. *)
Fixpoint add_to_groups (r : ledger_record) (gs : list group) : list group :=
  match gs with
  | [] => [(rec_item r, (0 + rec_quantity r)%Z, 0 + rec_line_total r)]
  | (k, q, t) :: gs' =>
      if str_eqb k (rec_item r) then
        (k, (q + rec_quantity r)%Z, t + rec_line_total r) :: gs'
      else if str_ltb (rec_item r) k then
        (rec_item r, (0 + rec_quantity r)%Z, 0 + rec_line_total r) :: gs
      else (k, q, t) :: add_to_groups r gs'
  end.

(** [df_orders.groupby("item").agg(quantita=("quantity", "sum"),
    totale=("line_total", "sum")).reset_index()] *)
Definition groupby_item (rs : list ledger_record) : list group :=
  fold_left (fun gs r => add_to_groups r gs) rs [].

(** [agg["totale"].sum()] *)
Definition grand_total (agg : list group) : Q :=
  fold_left (fun acc g => acc + group_total g) agg 0.

(** ** The "Mostra riepilogo ordini" button *)

Inductive view_out :=
| NoOrders (m : msg)
(** the row was deleted and [st.experimental_rerun()] ended the run *)
| Deleted (m : msg)
| Shown (df : list ledger_record) (agg : list group) (total : Q).

(** [delete_selected] is [Some i] when row [i] is selected and
    "Elimina ordine selezionato" is pressed. *)
Definition view_orders (delete_selected : option nat) : io view_out :=
  df <- load_orders_dataframe ;;
  match df with
  | None | Some [] => ret (NoOrders (Info "Nessun ordine inviato finora."))
  | Some rs =>
      match delete_selected with
      | Some i =>
          delete_row rs i ;;;
          ret (Deleted (Success "Ordine eliminato."))
      | None =>
          let agg := groupby_item rs in
          ret (Shown rs agg (grand_total agg))
      end
  end.

(** ** Two categories of [build_menu]

    "Sweet brunch (Pancakes e Waffles)" and "Dolci – pancakes", item by
    item as in [build_menu], whose item names separate their words with
    U+00A0 (no-break space), save for one plain space in each of two
    names of the second category. *)

(** The code points of [s] with each space replaced by U+00A0. *)
Definition nbsp_of (s : string) : pystr :=
  map (fun c => if (c =? 32)%N then 160%N else c) (of_ascii s).

Definition cat_sweet_brunch : pystr := of_ascii "Sweet brunch (Pancakes e Waffles)".
Definition cat_dolci_pancakes : pystr :=
  of_ascii "Dolci " ++ [8211%N] ++ of_ascii " pancakes".

Definition sweet_brunch_items : list (pystr * Q) :=
  [(nbsp_of "Baby Pancakes", 5.0);
   (nbsp_of "Pancakes Cioccolato Bianco e Frutti di Bosco", 8.0);
   (nbsp_of "Pancakes Nutella e Banana", 7.0);
   (nbsp_of "Pancakes Nutella, Fragole e Panna", 8.0);
   (nbsp_of "Pancakes Pistacchio", 7.0);
   (nbsp_of "Pancakes Sciroppo Acero", 8.0);
   (nbsp_of "Waffle Crema e Frutti di Bosco", 8.0);
   (nbsp_of "Waffle Nutella e Fragola", 7.0);
   (nbsp_of "Waffle Pistacchio", 7.0);
   (nbsp_of "Waffle Sciroppo Acero", 7.0);
   (nbsp_of "Waffle Cioccolato Bianco e Frutti di Bosco", 8.0)].

Definition dolci_pancakes_items : list (pystr * Q) :=
  [(nbsp_of "Pancakes Bueno", 9.0);
   (nbsp_of "Pancakes Nutella" ++ of_ascii " e" ++ nbsp_of " Banana", 7.0);
   (nbsp_of "Pancakes Cioccolato Bianco" ++ of_ascii " e" ++
      nbsp_of " Frutti Rossi", 8.0);
   (nbsp_of "Pancakes Sciroppo Acero", 8.0);
   (nbsp_of "Pancakes Nutella, Fragole e Panna", 8.0);
   (nbsp_of "Pancakes Pistacchio", 8.0)].

Definition pancake_categories : menu :=
  [(cat_sweet_brunch, sweet_brunch_items);
   (cat_dolci_pancakes, dolci_pancakes_items)].

(** ** Reading the aggregation *)

(** The [(quantita, totale)] of the group of item [k], if any. *)
Fixpoint lookup_group (k : pystr) (gs : list group) : option (Z * Q) :=
  match gs with
  | [] => None
  | (k', q, t) :: gs' => if str_eqb k' k then Some (q, t) else lookup_group k gs'
  end.

(** ** Readings of the spec used to compare with the code *)

(** The order the spec asks of the groups: items in the order of their
    first record. *)
Fixpoint first_seen_items_spec (seen : list pystr) (rs : list ledger_record)
  : list pystr :=
  match rs with
  | [] => rev seen
  | r :: rs' =>
      if existsb (str_eqb (rec_item r)) seen
      then first_seen_items_spec seen rs'
      else first_seen_items_spec (rec_item r :: seen) rs'
  end.

(** Rounding to two decimals, ties away from zero (half-up), as the spec
    asks of a draft line total (for non-negative amounts). *)
Definition round_half_up2_spec (x : Q) : Q :=
  Qmake (Qfloor (x * 100 + (1#2))) 100.

(** The exact value of a finite binary64 number [(-1)^s * m * 2^e]. *)
Definition Q_of_float (x : PrimFloat.float) : Q :=
  match FloatOps.Prim2SF x with
  | SpecFloat.S754_finite s m e =>
      (if s then -1 else 1) * inject_Z (Zpos m) * Qpower (2#1) e
  | _ => 0
  end.

(** A ledger row as [save_order_to_csv] writes it, for concrete inputs. *)
Definition sample_record (name item : string) (price : Q) (qty : Z)
  : ledger_record :=
  {| rec_name := of_ascii name; rec_item := of_ascii item;
     rec_price := price; rec_quantity := qty;
     rec_line_total := round2 (price * inject_Z qty);
     rec_timestamp := of_ascii "2025-12-01T10:00:00" |}.

(** ** Reading the draft *)

(** Python [==] on the draft keys [(item_name, price)]. *)
Definition key_eqb (k1 k2 : draft_key) : bool :=
  str_eqb (fst k1) (fst k2) && Qeq_bool (snd k1) (snd k2).

(** [order_quantities[k]] on the [defaultdict(int)]: 0 for a missing key. *)
Fixpoint draft_get (k : draft_key) (d : draft) : Z :=
  match d with
  | [] => 0%Z
  | (k', v) :: d' => if key_eqb k' k then v else draft_get k d'
  end.

(** The quantity widgets of a menu in display order:
    [(category, item_name, price)]. *)
Definition menu_widgets (m : menu) : list (pystr * pystr * Q) :=
  flat_map (fun '(category, items) =>
              map (fun '(item_name, price) => (category, item_name, price)) items)
           m.

(** Every name column the file holds has no leading or trailing
    whitespace. *)
Definition names_stripped (f : csv_file) : Prop :=
  match f with
  | Csv rs => Forall (fun r => strip (rec_name r) = rec_name r) rs
  | _ => True
  end.

(** ** Reading the draft summary *)

(** The lines of the summary: the entries of quantity > 0 in draft order,
    with the binary64 product [price * qty]. *)
Definition draft_lines (d : draft) : list (pystr * Z * PrimFloat.float) :=
  map (fun '((item, price), qty) =>
         (item, qty, PrimFloat.mul (float_of_Q price) (float_of_Z qty)))
      (filter (fun '(_, qty) => (0 <? qty)%Z) d).

(** * Properties *)

(** Scenario B of the spec: Mario's order of two cappuccinos and one
    cornetto, then the per-item summary. *)
Example scenario_b :
  let d := [((of_ascii "Cappuccino", 2.0), 2%Z); ((of_ascii "Cornetto", 1.5), 1%Z)] in
  let ts := of_ascii "2025-12-01T10:00:00" in
  let mario := [sample_record "Mario" "Cappuccino" 2.0 2%Z;
                sample_record "Mario" "Cornetto" 1.5 1%Z] in
  snd (save_order_to_csv (of_ascii "Mario") ts d Absent) = Csv mario /\
  groupby_item mario =
    [(of_ascii "Cappuccino", 2%Z, 0 + round2 (2.0 * 2));
     (of_ascii "Cornetto", 1%Z, 0 + round2 (1.5 * 1))] /\
  grand_total (groupby_item mario) == 5.5.
Proof. split; [reflexivity | split; [reflexivity | vm_compute; reflexivity]]. Qed.

(** ** Rows written by save_order_to_csv *)

Lemma order_rows_filter (name ts : pystr) (d : draft) :
  order_rows name ts d =
  map (fun '((item, price), qty) =>
         mk_record name item price qty (round2 (price * inject_Z qty)) ts)
      (filter (fun '(_, qty) => (0 <? qty)%Z) d).
Proof.
  induction d as [|[[item price] qty] d IH]; simpl; [reflexivity|].
  destruct (Z.leb_spec qty 0) as [Hq|Hq].
  - replace (0 <? qty)%Z with false by (symmetry; apply Z.ltb_ge; lia). exact IH.
  - replace (0 <? qty)%Z with true by (symmetry; apply Z.ltb_lt; lia).
    simpl. now rewrite IH.
Qed.

Lemma order_rows_nil (name ts : pystr) (d : draft) :
  (forall k q, In (k, q) d -> (q <= 0)%Z) -> order_rows name ts d = [].
Proof.
  induction d as [|[[item price] qty] d IH]; intros H; simpl; [reflexivity|].
  destruct (Z.leb_spec qty 0) as [Hq|Hq].
  - apply IH. intros k q Hin. apply (H k q). now right.
  - exfalso. specialize (H (item, price) qty (or_introl eq_refl)). lia.
Qed.

Lemma order_rows_cons (name ts : pystr) (d : draft) k q :
  In (k, q) d -> (0 < q)%Z -> order_rows name ts d <> [].
Proof.
  intros Hin Hq. rewrite order_rows_filter.
  assert (Hf : In (k, q) (filter (fun '(_, qty) => (0 <? qty)%Z) d)).
  { apply filter_In. split; [exact Hin|]. now apply Z.ltb_lt. }
  destruct (filter _ d) as [|x l]; [contradiction|].
  destruct x as [[i p] qq]. discriminate.
Qed.

(** C1 (counterexample): with [orders.csv] present but not parseable by
    [pd.read_csv], saving a draft with an entry of quantity > 0 raises
    [ParserError] out of [save_order_to_csv] and leaves the file as it was;
    loading it then gives no record at all, so no new record appears. *)
Lemma save_corrupt_appends_nothing :
  let d := [((of_ascii "Cappuccino", 2.0), 2%Z)] in
  save_order_to_csv (of_ascii "Mario") [] d Corrupt = (Raise ParserError, Corrupt) /\
  load_orders_dataframe (snd (save_order_to_csv (of_ascii "Mario") [] d Corrupt))
    = (Ok None, Corrupt).
Proof. split; reflexivity. Qed.

(** C1 (amended): for a draft with an entry of quantity > 0, saving the
    order on a missing or readable file and then loading the file gives
    the records stored before followed by one new record per entry of
    quantity > 0, in draft order, whose item and price are the entry's
    key, whose quantity is the entry's quantity and whose line total is
    [round(price * quantity, 2)]; on a file that cannot be parsed, saving
    raises [ParserError] and leaves the file unchanged. *)
Theorem save_then_load_appends (name ts : pystr) (d : draft) (f : csv_file)
  (k : draft_key) (q : Z) (Hin : In (k, q) d) (Hq : (0 < q)%Z) :
  let prev := match f with Csv rs => rs | _ => [] end in
  let rows := map (fun '((item, price), qty) =>
                     mk_record name item price qty
                               (round2 (price * inject_Z qty)) ts)
                  (filter (fun '(_, qty) => (0 <? qty)%Z) d) in
  match f with
  | Corrupt => save_order_to_csv name ts d f = (Raise ParserError, Corrupt)
  | _ =>
      fst (save_order_to_csv name ts d f) = Ok tt /\
      load_orders_dataframe (snd (save_order_to_csv name ts d f)) =
        (Ok (Some (prev ++ rows)), Csv (prev ++ rows))
  end.
Proof.
  intros prev rows.
  pose proof (order_rows_cons name ts d k q Hin Hq) as Hne.
  assert (Hr : order_rows name ts d = rows) by apply order_rows_filter.
  unfold save_order_to_csv.
  destruct (order_rows name ts d) as [|r0 rs0] eqn:E; [contradiction|].
  rewrite <- Hr.
  destruct f as [|rs|]; [split; reflexivity|split; reflexivity|reflexivity].
Qed.

Lemma save_then_load_appends_witness :
  let d := [((of_ascii "Cappuccino", 2.0), 2%Z); ((of_ascii "Cornetto", 1.5), 0%Z)] in
  let r0 := sample_record "Anna" "Cornetto" 1.5 1%Z in
  let r1 := mk_record (of_ascii "Mario") (of_ascii "Cappuccino") 2.0 2%Z
                      (round2 (2.0 * inject_Z 2)) [] in
  In ((of_ascii "Cappuccino", 2.0), 2%Z) d /\ (0 < 2)%Z /\
  fst (save_order_to_csv (of_ascii "Mario") [] d (Csv [r0])) = Ok tt /\
  load_orders_dataframe (snd (save_order_to_csv (of_ascii "Mario") [] d (Csv [r0])))
    = (Ok (Some [r0; r1]), Csv [r0; r1]).
Proof.
  intros d r0 r1. split; [left; reflexivity|]. split; [lia|].
  exact (save_then_load_appends (of_ascii "Mario") [] d (Csv [r0])
           (of_ascii "Cappuccino", 2.0) 2%Z (or_introl eq_refl) ltac:(lia)).
Defined.

(** C6: when no entry of the draft has a quantity > 0, saving the order
    writes nothing: the file (missing, readable or not) is left as it was
    and no exception is raised. *)
Theorem save_empty_draft_noop (name ts : pystr) (d : draft) (f : csv_file)
  (H : forall k q, In (k, q) d -> (q <= 0)%Z) :
  save_order_to_csv name ts d f = (Ok tt, f).
Proof.
  unfold save_order_to_csv. now rewrite (order_rows_nil name ts d H).
Qed.

Lemma save_empty_draft_noop_witness :
  save_order_to_csv (of_ascii "Anna") [] [((of_ascii "Cappuccino", 2.0), 0%Z)] Absent
  = (Ok tt, Absent).
Proof.
  apply save_empty_draft_noop.
  intros k q [Heq|[]]. inversion Heq. lia.
Defined.

(** ** The submit button *)

Lemma lstrip_all_space (s : pystr) :
  (forall c, In c s -> is_space c = true) -> lstrip s = [].
Proof.
  induction s as [|c s IH]; intros H; simpl; [reflexivity|].
  rewrite (H c (or_introl eq_refl)). apply IH. intros c' Hc. apply H. now right.
Qed.

(** C7: a name that is empty or made only of whitespace is rejected with
    the warning asking for a name, whatever the draft, and the file is
    left unchanged. *)
Theorem submit_blank_name_rejected (name ts : pystr) (d : draft) (f : csv_file)
  (H : forall c, In c name -> is_space c = true) :
  submit name ts d f =
    (Ok (Warning "Per inviare l'ordine devi inserire il tuo nome."), f).
Proof.
  unfold submit, strip. rewrite (lstrip_all_space name H). reflexivity.
Qed.

Lemma submit_blank_name_rejected_witness :
  submit [32%N; 9%N; 160%N] [] [((of_ascii "Cappuccino", 2.0), 1%Z)] (Csv [])
  = (Ok (Warning "Per inviare l'ordine devi inserire il tuo nome."), Csv []).
Proof.
  apply submit_blank_name_rejected.
  intros c [<-|[<-|[<-|[]]]]; reflexivity.
Defined.

(** ** Loading the file *)

(** C8 (counterexample): a file [pd.read_csv] cannot parse gives the same
    outcome as a missing file, the information "Nessun ordine inviato
    finora."; no warning is shown. *)
Lemma corrupt_store_no_warning :
  fst (view_orders None Corrupt) = fst (view_orders None Absent) /\
  ~ (exists t, fst (view_orders None Corrupt) = Ok (NoOrders (Warning t))).
Proof.
  split; [reflexivity|]. intros [t Ht]. discriminate Ht.
Qed.

(** C8 (amended): loading never raises and never changes the file: a
    missing file and a file that cannot be parsed both give [None], a
    readable file gives its records; the summary view then shows the same
    information message for a missing and for an unparsable file. *)
Theorem load_never_raises (f : csv_file) :
  load_orders_dataframe f =
    (Ok (match f with Csv rs => Some rs | _ => None end), f) /\
  view_orders None Corrupt =
    (Ok (NoOrders (Info "Nessun ordine inviato finora.")), Corrupt) /\
  view_orders None Absent =
    (Ok (NoOrders (Info "Nessun ordine inviato finora.")), Absent).
Proof.
  split; [destruct f; reflexivity|]. split; reflexivity.
Qed.

(** ** Deleting a row *)

Lemma existsb_label (i : nat) (n : nat) :
  existsb (Nat.eqb i) (seq 0 n) = (i <? n).
Proof.
  destruct (existsb (Nat.eqb i) (seq 0 n)) eqn:E; symmetry.
  - apply Nat.ltb_lt. apply existsb_exists in E as [x [Hx Hix]].
    apply Nat.eqb_eq in Hix. subst x. apply in_seq in Hx. lia.
  - apply Nat.ltb_ge. destruct (Nat.lt_ge_cases i n) as [Hlt|]; [|assumption].
    exfalso. assert (Ht : existsb (Nat.eqb i) (seq 0 n) = true).
    { apply existsb_exists. exists i. split; [apply in_seq; lia|].
      apply Nat.eqb_refl. }
    congruence.
Qed.

Lemma drop_label_above (rs : list ledger_record) (s i : nat) :
  (i < s)%nat ->
  map snd (filter (fun '(l, _) => negb (Nat.eqb l i))
                  (combine (seq s (List.length rs)) rs)) = rs.
Proof.
  revert s. induction rs as [|r rs IH]; intros s Hs; simpl; [reflexivity|].
  replace (Nat.eqb s i) with false by (symmetry; apply Nat.eqb_neq; lia).
  simpl. f_equal. apply IH. lia.
Qed.

Lemma drop_label_at (rs : list ledger_record) (s i : nat) :
  (s <= i)%nat -> (i < s + List.length rs)%nat ->
  map snd (filter (fun '(l, _) => negb (Nat.eqb l i))
                  (combine (seq s (List.length rs)) rs)) =
  firstn (i - s) rs ++ skipn (S (i - s)) rs.
Proof.
  revert s. induction rs as [|r rs IH]; intros s H1 H2; simpl in *; [lia|].
  destruct (Nat.eqb_spec s i) as [<-|Hne]; simpl.
  - rewrite Nat.sub_diag. simpl. apply drop_label_above. lia.
  - replace (i - s)%nat with (S (i - S s)) by lia. simpl. f_equal.
    apply IH; lia.
Qed.

(** C2: deleting the row at a position not below the number of rows of
    the loaded frame raises [KeyError] (the spec's not-found failure) and
    leaves the file as it was, whatever the file holds now. *)
Theorem delete_out_of_range (df : list ledger_record) (i : nat) (f : csv_file)
  (H : (List.length df <= i)%nat) :
  delete_row df i f = (Raise (KeyError i), f).
Proof.
  unfold delete_row. rewrite existsb_label.
  replace (i <? List.length df) with false by (symmetry; apply Nat.ltb_ge; exact H).
  reflexivity.
Qed.

Lemma delete_out_of_range_witness :
  delete_row [sample_record "Anna" "Cappuccino" 2.0 1%Z] 1%nat (Csv [])
  = (Raise (KeyError 1%nat), Csv []).
Proof. apply delete_out_of_range. simpl. lia. Defined.

(** C9: on a file holding [n >= 1] rows, loading it and deleting the row
    at position [i < n] rewrites the whole file with the rows before [i]
    followed by the rows after [i]: [n - 1] rows, the removed one being the
    row that was at position [i]. *)
Theorem view_delete_removes (rs : list ledger_record) (i : nat)
  (H : (i < List.length rs)%nat) :
  let rest := firstn i rs ++ skipn (S i) rs in
  view_orders (Some i) (Csv rs) =
    (Ok (Deleted (Success "Ordine eliminato.")), Csv rest) /\
  List.length rest = (List.length rs - 1)%nat /\
  exists r, nth_error rs i = Some r /\ rs = firstn i rs ++ r :: skipn (S i) rs.
Proof.
  intros rest.
  split; [|split].
  - pose proof (drop_label_at rs 0 i (Nat.le_0_l i) H) as D.
    rewrite Nat.sub_0_r in D. unfold rest. rewrite <- D.
    destruct rs as [|r0 rs0]; [simpl in H; lia|].
    change (view_orders (Some i) (Csv (r0 :: rs0))) with
      ((delete_row (r0 :: rs0) i ;;; ret (Deleted (Success "Ordine eliminato.")))
         (Csv (r0 :: rs0))).
    unfold delete_row. rewrite existsb_label.
    replace (i <? List.length (r0 :: rs0)) with true
      by (symmetry; apply Nat.ltb_lt; exact H).
    reflexivity.
  - unfold rest. rewrite length_app, length_firstn, length_skipn. lia.
  - destruct (nth_error rs i) as [r|] eqn:En.
    + exists r. split; [reflexivity|].
      rewrite <- (firstn_skipn i rs) at 1. f_equal.
      clear -En. revert rs En. induction i as [|i IH]; intros [|x rs] En;
        simpl in *; try discriminate.
      * now inversion En.
      * now apply IH.
    + apply nth_error_None in En. lia.
Qed.

Lemma view_delete_removes_witness :
  let rs := [sample_record "Anna" "Cornetto" 1.5 1%Z;
             sample_record "Mario" "Cappuccino" 2.0 1%Z] in
  (1 < List.length rs)%nat /\
  view_orders (Some 1%nat) (Csv rs) =
    (Ok (Deleted (Success "Ordine eliminato.")),
     Csv [sample_record "Anna" "Cornetto" 1.5 1%Z]).
Proof.
  intros rs. split; [simpl; lia|].
  exact (proj1 (view_delete_removes rs 1%nat ltac:(simpl; lia))).
Defined.

(** ** Python string order *)

Lemma str_eqb_eq (a b : pystr) : str_eqb a b = true <-> a = b.
Proof.
  revert b. induction a as [|x a IH]; intros [|y b]; simpl;
    try (split; congruence).
  rewrite andb_true_iff, N.eqb_eq, IH. split; [intros [-> ->]; reflexivity|].
  intros H; inversion H; auto.
Qed.

Lemma str_eqb_refl (a : pystr) : str_eqb a a = true.
Proof. now apply str_eqb_eq. Qed.

Lemma str_ltb_irrefl (a : pystr) : str_ltb a a = false.
Proof.
  induction a as [|x a IH]; simpl; [reflexivity|]. now rewrite N.compare_refl.
Qed.

Lemma str_ltb_trans (a b c : pystr) :
  str_ltb a b = true -> str_ltb b c = true -> str_ltb a c = true.
Proof.
  revert b c. induction a as [|x a IH]; intros [|y b] [|z c]; simpl;
    try discriminate; auto.
  destruct (N.compare_spec x y) as [Exy|Exy|Exy].
  - subst y. destruct (N.compare_spec x z) as [Exz|Exz|Exz].
    + subst z. apply IH.
    + intros; reflexivity.
    + intros _ H; discriminate H.
  - intros _. destruct (N.compare_spec y z) as [Eyz|Eyz|Eyz].
    + intros _. subst z.
      replace (N.compare x y) with Lt by (symmetry; apply N.compare_lt_iff; exact Exy).
      reflexivity.
    + intros _.
      replace (N.compare x z) with Lt by (symmetry; apply N.compare_lt_iff; lia).
      reflexivity.
    + intros H; discriminate H.
  - intros H; discriminate H.
Qed.

Lemma str_ltb_total (a b : pystr) :
  str_eqb a b = false -> str_ltb a b = false -> str_ltb b a = true.
Proof.
  revert b. induction a as [|x a IH]; intros [|y b]; simpl; try discriminate; auto.
  destruct (N.compare_spec x y) as [<-|Hxy|Hxy]; intros H1 H2.
  - rewrite N.compare_refl. rewrite N.eqb_refl in H1. now apply IH.
  - discriminate.
  - replace (N.compare y x) with Lt by (symmetry; apply N.compare_lt_iff; lia).
    reflexivity.
Qed.

Definition str_lt (a b : pystr) : Prop := str_ltb a b = true.

(** ** Groups of [groupby("item")] *)

Lemma keys_add_to_groups (r : ledger_record) (gs : list group) (k : pystr) :
  In k (map group_item (add_to_groups r gs)) <->
  k = rec_item r \/ In k (map group_item gs).
Proof.
  induction gs as [|[[k' q] t] gs IH]; simpl; [intuition congruence|].
  destruct (str_eqb k' (rec_item r)) eqn:E.
  - apply str_eqb_eq in E. subst k'. simpl. intuition congruence.
  - destruct (str_ltb (rec_item r) k'); simpl; [intuition congruence|].
    rewrite IH. intuition congruence.
Qed.

Lemma add_to_groups_sorted (r : ledger_record) (gs : list group) :
  StronglySorted str_lt (map group_item gs) ->
  StronglySorted str_lt (map group_item (add_to_groups r gs)).
Proof.
  induction gs as [|[[k q] t] gs IH]; intros Hs; simpl.
  - repeat constructor.
  - apply StronglySorted_inv in Hs as [Hs Hall]. simpl in Hall.
    destruct (str_eqb k (rec_item r)) eqn:E; simpl.
    + constructor; assumption.
    + destruct (str_ltb (rec_item r) k) eqn:L; simpl.
      * constructor; [constructor; assumption|].
        constructor; [exact L|].
        eapply Forall_impl; [|exact Hall]. intros x Hx.
        exact (str_ltb_trans _ _ _ L Hx).
      * constructor; [now apply IH|].
        apply Forall_forall. intros x Hx. apply keys_add_to_groups in Hx.
        destruct Hx as [->|Hx].
        -- apply str_ltb_total; [|exact L].
           destruct (str_eqb (rec_item r) k) eqn:E'; [|reflexivity].
           apply str_eqb_eq in E'. rewrite E', str_eqb_refl in E. discriminate.
        -- exact (proj1 (Forall_forall _ _) Hall x Hx).
Qed.

Lemma groupby_fold_sorted (rs : list ledger_record) (gs : list group) :
  StronglySorted str_lt (map group_item gs) ->
  StronglySorted str_lt
    (map group_item (fold_left (fun gs r => add_to_groups r gs) rs gs)).
Proof.
  revert gs. induction rs as [|r rs IH]; intros gs Hs; simpl; [exact Hs|].
  apply IH. now apply add_to_groups_sorted.
Qed.

Lemma groupby_item_sorted (rs : list ledger_record) :
  StronglySorted str_lt (map group_item (groupby_item rs)).
Proof. apply groupby_fold_sorted. constructor. Qed.

Lemma groupby_fold_keys (rs : list ledger_record) (gs : list group) (k : pystr) :
  In k (map group_item (fold_left (fun gs r => add_to_groups r gs) rs gs)) <->
  In k (map group_item gs) \/ exists r, In r rs /\ rec_item r = k.
Proof.
  revert gs. induction rs as [|r rs IH]; intros gs; simpl.
  - split; [tauto|]. intros [H|[r [[] _]]]. exact H.
  - rewrite IH, keys_add_to_groups. split.
    + intros [[->|H]|[r' [H1 H2]]]; eauto.
    + intros [H|[r' [[<-|H1] H2]]]; eauto.
Qed.

(** C3 (counterexample): a cornetto ordered before a cappuccino; the
    groups come out as Cappuccino then Cornetto, not in the order in which
    the items were first seen. *)
Lemma groups_not_first_seen :
  let rs := [sample_record "Anna" "Cornetto" 1.5 1%Z;
             sample_record "Mario" "Cappuccino" 2.0 1%Z] in
  map group_item (groupby_item rs) =
    [of_ascii "Cappuccino"; of_ascii "Cornetto"] /\
  first_seen_items_spec [] rs = [of_ascii "Cornetto"; of_ascii "Cappuccino"] /\
  map group_item (groupby_item rs) <> first_seen_items_spec [] rs.
Proof.
  split; [reflexivity|]. split; [reflexivity|]. vm_compute. congruence.
Qed.

(** C3 (amended): the groups come out in ascending order of the item
    name (Python string order, code point by code point), one group per
    distinct item of the records. *)
Theorem groupby_item_order (rs : list ledger_record) :
  StronglySorted str_lt (map group_item (groupby_item rs)) /\
  forall k, In k (map group_item (groupby_item rs)) <->
            exists r, In r rs /\ rec_item r = k.
Proof.
  split; [apply groupby_item_sorted|].
  intros k. unfold groupby_item. rewrite groupby_fold_keys. simpl. tauto.
Qed.

(** ** Sums per group *)

(** One record added to the [(quantita, totale)] of its group. *)
Definition add_record (o : option (Z * Q)) (r : ledger_record) : Z * Q :=
  let '(q, t) := match o with Some p => p | None => (0%Z, 0) end in
  ((q + rec_quantity r)%Z, t + rec_line_total r).

Lemma lookup_group_absent (k : pystr) (gs : list group) :
  ~ In k (map group_item gs) -> lookup_group k gs = None.
Proof.
  induction gs as [|[[k' q] t] gs IH]; simpl; intros H; [reflexivity|].
  destruct (str_eqb k' k) eqn:E.
  - apply str_eqb_eq in E. tauto.
  - apply IH. tauto.
Qed.

Lemma lookup_add_to_groups (r : ledger_record) (gs : list group) (k : pystr) :
  StronglySorted str_lt (map group_item gs) ->
  lookup_group k (add_to_groups r gs) =
  if str_eqb (rec_item r) k then Some (add_record (lookup_group k gs) r)
  else lookup_group k gs.
Proof.
  induction gs as [|[[k' q] t] gs IH]; intros Hs; simpl; [reflexivity|].
  apply StronglySorted_inv in Hs as [Hs Hall]. simpl in Hall.
  destruct (str_eqb k' (rec_item r)) eqn:E.
  - apply str_eqb_eq in E. subst k'. simpl.
    destruct (str_eqb (rec_item r) k); reflexivity.
  - destruct (str_ltb (rec_item r) k') eqn:L; simpl.
    + destruct (str_eqb (rec_item r) k) eqn:E2; [|reflexivity].
      apply str_eqb_eq in E2. subst k. rewrite E.
      rewrite lookup_group_absent; [reflexivity|].
      intros Hin. pose proof (proj1 (Forall_forall _ _) Hall _ Hin) as Hlt.
      unfold str_lt in Hlt. pose proof (str_ltb_trans _ _ _ L Hlt) as Hc.
      rewrite str_ltb_irrefl in Hc. discriminate.
    + rewrite (IH Hs).
      destruct (str_eqb k' k) eqn:E1; [|reflexivity].
      apply str_eqb_eq in E1. subst k.
      destruct (str_eqb (rec_item r) k') eqn:E2; [|reflexivity].
      apply str_eqb_eq in E2. rewrite E2, str_eqb_refl in E. discriminate.
Qed.

Definition group_step (k : pystr) (o : option (Z * Q)) (r : ledger_record)
  : option (Z * Q) :=
  if str_eqb (rec_item r) k then Some (add_record o r) else o.

Lemma lookup_groupby_fold (rs : list ledger_record) (gs : list group) (k : pystr) :
  StronglySorted str_lt (map group_item gs) ->
  lookup_group k (fold_left (fun gs r => add_to_groups r gs) rs gs) =
  fold_left (group_step k) rs (lookup_group k gs).
Proof.
  revert gs. induction rs as [|r rs IH]; intros gs Hs; simpl; [reflexivity|].
  rewrite IH by (now apply add_to_groups_sorted).
  rewrite lookup_add_to_groups by exact Hs. reflexivity.
Qed.

Lemma group_step_some (k : pystr) (rs : list ledger_record) (q : Z) (t : Q) :
  let mine := filter (fun r => str_eqb (rec_item r) k) rs in
  fold_left (group_step k) rs (Some (q, t)) =
  Some (fold_left (fun a r => (a + rec_quantity r)%Z) mine q,
        fold_left (fun a r => a + rec_line_total r) mine t).
Proof.
  revert q t. induction rs as [|r rs IH]; intros q t; simpl; [reflexivity|].
  unfold group_step at 2. destruct (str_eqb (rec_item r) k); simpl; apply IH.
Qed.

Lemma group_step_none (k : pystr) (rs : list ledger_record) :
  let mine := filter (fun r => str_eqb (rec_item r) k) rs in
  fold_left (group_step k) rs None =
  if existsb (fun r => str_eqb (rec_item r) k) rs then
    Some (fold_left (fun a r => (a + rec_quantity r)%Z) mine 0%Z,
          fold_left (fun a r => a + rec_line_total r) mine 0)
  else None.
Proof.
  induction rs as [|r rs IH]; simpl; [reflexivity|].
  unfold group_step at 2. destruct (str_eqb (rec_item r) k); simpl.
  - apply group_step_some.
  - exact IH.
Qed.

(** ** The grand total *)

Lemma fold_sum_acc {A} (f : A -> Q) (l : list A) (a : Q) :
  fold_left (fun acc x => acc + f x) l a ==
  a + fold_left (fun acc x => acc + f x) l 0.
Proof.
  revert a. induction l as [|x l IH]; intros a; simpl; [ring|].
  rewrite (IH (a + f x)), (IH (0 + f x)). ring.
Qed.

Lemma grand_total_cons (g : group) (gs : list group) :
  grand_total (g :: gs) == group_total g + grand_total gs.
Proof.
  unfold grand_total. simpl. rewrite fold_sum_acc. ring.
Qed.

Lemma grand_total_add (r : ledger_record) (gs : list group) :
  grand_total (add_to_groups r gs) == grand_total gs + rec_line_total r.
Proof.
  induction gs as [|[[k q] t] gs IH]; simpl.
  - unfold grand_total; simpl. ring.
  - destruct (str_eqb k (rec_item r)).
    + rewrite !grand_total_cons. simpl. ring.
    + destruct (str_ltb (rec_item r) k).
      * rewrite !grand_total_cons. simpl. ring.
      * rewrite !grand_total_cons, IH. simpl. ring.
Qed.

Lemma grand_total_fold (rs : list ledger_record) (gs : list group) :
  grand_total (fold_left (fun gs r => add_to_groups r gs) rs gs) ==
  grand_total gs + fold_left (fun a r => a + rec_line_total r) rs 0.
Proof.
  revert gs. induction rs as [|r rs IH]; intros gs; simpl; [ring|].
  rewrite IH, grand_total_add, (fold_sum_acc rec_line_total rs (0 + rec_line_total r)).
  ring.
Qed.

Lemma sorted_nodup (l : list pystr) : StronglySorted str_lt l -> NoDup l.
Proof.
  induction 1 as [|a l Hs IH Hall]; constructor; [|exact IH].
  intros Hin. pose proof (proj1 (Forall_forall _ _) Hall a Hin) as H.
  unfold str_lt in H. now rewrite str_ltb_irrefl in H.
Qed.

(** C5: the groups are keyed by the item name alone: the group of item
    [k] exists exactly when some record has item [k], whoever ordered it
    and at whatever price, and holds the sum of the quantities and the sum
    of the stored line totals of all the records with item [k]; the item
    names of the groups are distinct; the grand total is the sum of the
    group totals, equal to the sum of all stored line totals. *)
Theorem groupby_item_sums (rs : list ledger_record) (k : pystr) :
  let mine := filter (fun r => str_eqb (rec_item r) k) rs in
  lookup_group k (groupby_item rs) =
    (if existsb (fun r => str_eqb (rec_item r) k) rs then
       Some (fold_left (fun a r => (a + rec_quantity r)%Z) mine 0%Z,
             fold_left (fun a r => a + rec_line_total r) mine 0)
     else None) /\
  NoDup (map group_item (groupby_item rs)) /\
  grand_total (groupby_item rs) =
    fold_left (fun acc g => acc + group_total g) (groupby_item rs) 0 /\
  grand_total (groupby_item rs) == fold_left (fun a r => a + rec_line_total r) rs 0.
Proof.
  intros mine. split; [|split; [|split]].
  - unfold groupby_item. rewrite lookup_groupby_fold by constructor.
    apply group_step_none.
  - apply sorted_nodup, groupby_item_sorted.
  - reflexivity.
  - unfold groupby_item. rewrite grand_total_fold. unfold grand_total at 1. simpl. ring.
Qed.

(** Scenario D of the spec: Anna's and Mario's cappuccinos fall in one
    group. *)
Example scenario_d :
  groupby_item [sample_record "Anna" "Cappuccino" 2.0 1%Z;
                sample_record "Mario" "Cappuccino" 2.0 1%Z] =
    [(of_ascii "Cappuccino", 2%Z, 0 + round2 (2.0 * 1) + round2 (2.0 * 1))].
Proof. reflexivity. Qed.

(** ** The draft summary *)

Lemma summarize_fold (d : draft) (lines : list (pystr * Z * PrimFloat.float))
  (total : PrimFloat.float) :
  fold_left
    (fun '(lines, total) '((item_name, price), qty) =>
       if (qty <=? 0)%Z then (lines, total)
       else let line_total :=
              PrimFloat.mul (float_of_Q price) (float_of_Z qty) in
            (lines ++ [(item_name, qty, line_total)],
             PrimFloat.add total line_total))
    d (lines, total) =
  (lines ++ draft_lines d,
   fold_left (fun acc '(_, _, lt) => PrimFloat.add acc lt) (draft_lines d) total).
Proof.
  revert lines total.
  induction d as [|[[item price] qty] d IH]; intros lines total; simpl.
  - now rewrite app_nil_r.
  - unfold draft_lines in *. simpl.
    destruct (Z.leb_spec qty 0) as [Hq|Hq].
    + replace (0 <? qty)%Z with false by (symmetry; apply Z.ltb_ge; lia).
      apply IH.
    + replace (0 <? qty)%Z with true by (symmetry; apply Z.ltb_lt; lia).
      simpl. rewrite IH, <- app_assoc. reflexivity.
Qed.

(** C4 (counterexample): three "Cornetto Gluten Free" at 2.7 (the menu's
    price): the summary line total is the binary64 product 2.7 * 3, whose
    exact value 1139973655678157 / 2^47 = 8.1000000000000014... is not a
    two-decimal amount, so neither it nor the total equals its rounding to
    two decimals (8.10); the empty draft gives no summary at all. *)
Lemma draft_line_total_not_rounded :
  let cgf := nbsp_of "Cornetto Gluten Free" in
  let lt := PrimFloat.mul (float_of_Q 2.7) (float_of_Z 3) in
  summarize_draft [((cgf, 2.7), 3%Z)] =
    Some ([(cgf, 3%Z, lt)], PrimFloat.add (float_of_Z 0) lt) /\
  Q_of_float lt == 1139973655678157 # 140737488355328 /\
  ~ (Q_of_float lt == round_half_up2_spec (Q_of_float lt)) /\
  ~ (Q_of_float (PrimFloat.add (float_of_Z 0) lt) ==
     round_half_up2_spec (Q_of_float (PrimFloat.add (float_of_Z 0) lt))) /\
  summarize_draft [] = None.
Proof.
  split; [reflexivity|]. split; [vm_compute; reflexivity|].
  split; [|split; [|reflexivity]]; intros H; vm_compute in H; discriminate H.
Qed.

(** C4 (amended): when the draft dict is empty no summary is computed;
    otherwise the summary lines are the entries of quantity > 0 in draft
    order, each with line total the binary64 product [price * quantity],
    unrounded, and the total is the binary64 sum of these unrounded line
    totals, added left to right to 0.0. *)
Theorem summarize_draft_unrounded (d : draft) :
  summarize_draft d =
    match d with
    | [] => None
    | _ :: _ =>
        Some (draft_lines d,
              fold_left (fun acc '(_, _, lt) => PrimFloat.add acc lt)
                        (draft_lines d) (float_of_Z 0))
    end.
Proof.
  destruct d as [|e d]; [reflexivity|].
  unfold summarize_draft. now rewrite summarize_fold.
Qed.

(** ** Same item in two categories *)



(** * Further properties of the code *)

(** ** Draft keys *)

Lemma str_eqb_sym (a b : pystr) : str_eqb a b = str_eqb b a.
Proof.
  destruct (str_eqb a b) eqn:E, (str_eqb b a) eqn:E'; try reflexivity.
  - apply str_eqb_eq in E. subst. rewrite str_eqb_refl in E'. discriminate.
  - apply str_eqb_eq in E'. subst. rewrite str_eqb_refl in E. discriminate.
Qed.

Lemma key_eqb_sym (k1 k2 : draft_key) : key_eqb k1 k2 = key_eqb k2 k1.
Proof.
  destruct k1 as [a p], k2 as [b q]. unfold key_eqb; simpl.
  now rewrite str_eqb_sym, Qeq_bool_comm.
Qed.

Lemma key_eqb_trans (k1 k2 k3 : draft_key) :
  key_eqb k1 k2 = true -> key_eqb k2 k3 = true -> key_eqb k1 k3 = true.
Proof.
  destruct k1 as [a p], k2 as [b q], k3 as [c r]. unfold key_eqb; simpl.
  rewrite !andb_true_iff, !str_eqb_eq, !Qeq_bool_iff.
  intros [-> H1] [-> H2]. split; [reflexivity|]. now rewrite H1.
Qed.

Lemma draft_get_add_qty (k k2 : draft_key) (q : Z) (d : draft) :
  draft_get k (add_qty k2 q d) =
  (draft_get k d + if key_eqb k2 k then q else 0)%Z.
Proof.
  induction d as [|[k' v] d IH]; simpl.
  - destruct (key_eqb k2 k); lia.
  - fold (key_eqb k' k2).
    destruct (key_eqb k' k2) eqn:E; simpl.
    + destruct (key_eqb k' k) eqn:E1.
      * rewrite key_eqb_sym in E.
        rewrite (key_eqb_trans _ _ _ E E1). lia.
      * destruct (key_eqb k2 k) eqn:E2; [|lia].
        rewrite (key_eqb_trans _ _ _ E E2) in E1. discriminate.
    + rewrite IH. destruct (key_eqb k' k) eqn:E1; [|reflexivity].
      destruct (key_eqb k2 k) eqn:E2; [|lia].
      rewrite key_eqb_sym in E2.
      rewrite (key_eqb_trans _ _ _ E1 E2) in E. discriminate.
Qed.

Lemma collect_items_get (k : draft_key) (number_input : pystr -> pystr -> Z)
  (category : pystr) (items : list (pystr * Q)) (d : draft) :
  draft_get k
    (fold_left
       (fun d '(item_name, price) =>
          let qty := number_input category item_name in
          if (qty =? 0)%Z then d else add_qty (item_name, price) qty d)
       items d) =
  (draft_get k d +
   fold_right
     (fun '(c, i, p) acc =>
        ((if (number_input c i =? 0)%Z then 0
          else if key_eqb (i, p) k then number_input c i else 0) + acc)%Z)
     0%Z (map (fun '(item_name, price) => (category, item_name, price)) items))%Z.
Proof.
  revert d. induction items as [|[i p] items IH]; intros d; simpl; [lia|].
  rewrite IH. destruct (number_input category i =? 0)%Z; [lia|].
  rewrite draft_get_add_qty. lia.
Qed.

(** The order draft read as the [defaultdict] of [main]: the quantity of a
    key [(item_name, price)] is the sum of the non-zero values entered in
    every widget, of any category, whose item name and price equal the
    key; a key no widget carries reads as 0. *)
Theorem collect_quantities_get (m : menu) (number_input : pystr -> pystr -> Z)
  (k : draft_key) :
  draft_get k (collect_quantities m number_input) =
  fold_right
    (fun '(c, i, p) acc =>
       ((if (number_input c i =? 0)%Z then 0
         else if key_eqb (i, p) k then number_input c i else 0) + acc)%Z)
    0%Z (menu_widgets m).
Proof.
  unfold collect_quantities, menu_widgets.
  assert (G : forall d,
    draft_get k
      (fold_left
         (fun d '(category, items) =>
            fold_left
              (fun d '(item_name, price) =>
                 let qty := number_input category item_name in
                 if (qty =? 0)%Z then d else add_qty (item_name, price) qty d)
              items d) m d) =
    (draft_get k d +
     fold_right
       (fun '(c, i, p) acc =>
          ((if (number_input c i =? 0)%Z then 0
            else if key_eqb (i, p) k then number_input c i else 0) + acc)%Z)
       0%Z
       (flat_map (fun '(category, items) =>
                    map (fun '(item_name, price) => (category, item_name, price))
                        items) m))%Z).
  { induction m as [|[c items] m IH]; intros d; simpl; [lia|].
    rewrite IH, collect_items_get, fold_right_app.
    set (F := fun '(c0, i, p) acc =>
                ((if (number_input c0 i =? 0)%Z then 0
                  else if key_eqb (i, p) k then number_input c0 i else 0) + acc)%Z).
    assert (A : forall l z, fold_right F z l = (fold_right F 0 l + z)%Z).
    { intros l z. induction l as [|[[c0 i] p] l IHl]; simpl; [lia|].
      rewrite IHl. lia. }
    rewrite (A _ (fold_right F 0%Z _)). lia. }
  rewrite G. reflexivity.
Qed.

(** A property of drafts kept by every [+=] of a non-zero widget value is
    kept by the whole loop of [main]. *)
Lemma collect_quantities_invariant (P : draft -> Prop) (m : menu)
  (number_input : pystr -> pystr -> Z) :
  P [] ->
  (forall d category item_name price,
     P d -> number_input category item_name <> 0%Z ->
     P (add_qty (item_name, price) (number_input category item_name) d)) ->
  P (collect_quantities m number_input).
Proof.
  intros H0 Hstep. unfold collect_quantities.
  assert (Hin : forall category items d, P d ->
    P (fold_left
         (fun d '(item_name, price) =>
            let qty := number_input category item_name in
            if (qty =? 0)%Z then d else add_qty (item_name, price) qty d)
         items d)).
  { intros category items. induction items as [|[i p] items IH]; intros d Hd;
      simpl; [exact Hd|].
    apply IH. destruct (Z.eqb_spec (number_input category i) 0); [exact Hd|].
    now apply Hstep. }
  generalize (@nil (draft_key * Z)) H0. clear H0.
  induction m as [|[c items] m IH]; intros d Hd; simpl; [exact Hd|].
  apply IH. now apply Hin.
Qed.

Lemma add_qty_positive (k : draft_key) (q : Z) (d : draft) :
  (0 < q)%Z -> Forall (fun e => (0 < snd e)%Z) d ->
  Forall (fun e => (0 < snd e)%Z) (add_qty k q d).
Proof.
  intros Hq. induction d as [|[k' v] d IH]; intros Hd; simpl.
  - constructor; [simpl; lia | constructor].
  - inversion Hd as [|x l Hv Hrest]; subst. simpl in Hv.
    destruct (_ && _).
    + constructor; [simpl; lia | exact Hrest].
    + constructor; [exact Hv | now apply IH].
Qed.

(** With the non-negative values the quantity widgets allow
    ([min_value=0]), every entry of [order_quantities] has a quantity
    > 0: an empty dict is exactly a selection of nothing, and no entry is
    skipped by the [qty <= 0] guards downstream. *)
Theorem collect_quantities_positive (m : menu)
  (number_input : pystr -> pystr -> Z)
  (Hmin : forall category item_name, (0 <= number_input category item_name)%Z) :
  Forall (fun e => (0 < snd e)%Z) (collect_quantities m number_input).
Proof.
  apply collect_quantities_invariant; [constructor|].
  intros d c i p Hd Hne. apply add_qty_positive; [|exact Hd].
  specialize (Hmin c i). lia.
Qed.

Lemma collect_quantities_positive_witness :
  Forall (fun e => (0 < snd e)%Z)
    (collect_quantities pancake_categories (fun _ _ => 2%Z)).
Proof. apply collect_quantities_positive. intros; lia. Defined.

(** ** Rounding of the stored line totals *)




(** ** The submit button, composed *)

(** A submission with a non-blank name and an entry of quantity > 0 on a
    missing or readable file shows the success message and leaves the
    file holding the former rows followed by the rows of the draft, under
    the stripped name. *)
Theorem submit_success (name ts : pystr) (d : draft) (f : csv_file)
  (k : draft_key) (q : Z) (Hname : strip name <> []) (Hin : In (k, q) d)
  (Hq : (0 < q)%Z) (Hf : f <> Corrupt) :
  submit name ts d f =
    (Ok (Success "Ordine inviato! Grazie per la tua scelta."),
     Csv (match f with Csv rs => rs | _ => [] end ++ order_rows (strip name) ts d)).
Proof.
  unfold submit.
  destruct (strip name) as [|c s] eqn:Es; [contradiction|]. rewrite <- Es.
  destruct d as [|e d']; [contradiction|].
  pose proof (order_rows_cons (strip name) ts (e :: d') k q Hin Hq) as Hne.
  unfold bind at 1, save_order_to_csv.
  destruct (order_rows (strip name) ts (e :: d')) as [|r0 rs0]; [contradiction|].
  destruct f as [|rs|]; [| |contradiction]; reflexivity.
Qed.

Lemma submit_success_witness :
  submit (of_ascii " Mario ") [] [((of_ascii "Cornetto", 1.5), 1%Z)] Absent =
    (Ok (Success "Ordine inviato! Grazie per la tua scelta."),
     Csv [mk_record (of_ascii "Mario") (of_ascii "Cornetto") 1.5 1%Z
                    (round2 (1.5 * inject_Z 1)) []]).
Proof.
  rewrite (submit_success _ _ _ _ (of_ascii "Cornetto", 1.5) 1%Z);
    [reflexivity | discriminate | left; reflexivity | lia | discriminate].
Defined.

(** A submission with a non-blank name and an entry of quantity > 0 on a
    file [pd.read_csv] cannot parse ends in the uncaught [ParserError] of
    [save_order_to_csv]: no success message, and the file is not
    touched. *)
Theorem submit_corrupt_raises (name ts : pystr) (d : draft)
  (k : draft_key) (q : Z) (Hname : strip name <> []) (Hin : In (k, q) d)
  (Hq : (0 < q)%Z) :
  submit name ts d Corrupt = (Raise ParserError, Corrupt).
Proof.
  unfold submit.
  destruct (strip name) as [|c s] eqn:Es; [contradiction|]. rewrite <- Es.
  destruct d as [|e d']; [contradiction|].
  pose proof (order_rows_cons (strip name) ts (e :: d') k q Hin Hq) as Hne.
  unfold bind at 1, save_order_to_csv.
  destruct (order_rows (strip name) ts (e :: d')) as [|r0 rs0]; [contradiction|].
  reflexivity.
Qed.

Lemma submit_corrupt_raises_witness :
  submit (of_ascii "Anna") [] [((of_ascii "Cappuccino", 2.0), 1%Z)] Corrupt =
    (Raise ParserError, Corrupt).
Proof.
  apply (submit_corrupt_raises _ _ _ (of_ascii "Cappuccino", 2.0) 1%Z);
    [discriminate | left; reflexivity | lia].
Defined.

(** ** Deleting from the summary view *)

(** Deleting row [i] of a loaded frame writes that frame without the row,
    whatever the file holds at that moment: rows saved after the frame was
    loaded are overwritten (last writer wins). *)
Theorem delete_row_overwrites (df : list ledger_record) (i : nat) (f : csv_file)
  (H : (i < List.length df)%nat) :
  delete_row df i f = (Ok tt, Csv (firstn i df ++ skipn (S i) df)).
Proof.
  unfold delete_row. rewrite existsb_label.
  replace (i <? List.length df) with true by (symmetry; apply Nat.ltb_lt; exact H).
  pose proof (drop_label_at df 0 i (Nat.le_0_l i) H) as D.
  rewrite Nat.sub_0_r in D. now rewrite D.
Qed.

Lemma delete_row_overwrites_witness :
  delete_row [sample_record "Anna" "Cornetto" 1.5 1%Z] 0%nat
    (Csv [sample_record "Anna" "Cornetto" 1.5 1%Z;
          sample_record "Mario" "Cappuccino" 2.0 1%Z]) =
    (Ok tt, Csv []).
Proof. apply delete_row_overwrites. simpl. lia. Defined.

(** ** Stored names are stripped *)

Lemma lstrip_idem (s : pystr) : lstrip (lstrip s) = lstrip s.
Proof.
  induction s as [|c s IH]; simpl; [reflexivity|].
  destruct (is_space c) eqn:E; [exact IH|]. simpl. now rewrite E.
Qed.

Lemma lstrip_suffix (s : pystr) : exists p, s = p ++ lstrip s.
Proof.
  induction s as [|c s IH]; simpl; [now exists []|].
  destruct (is_space c).
  - destruct IH as [p Hp]. exists (c :: p). simpl. now rewrite <- Hp.
  - now exists [].
Qed.

Lemma lstrip_head (s : pystr) :
  lstrip s = [] \/ exists c t, lstrip s = c :: t /\ is_space c = false.
Proof.
  induction s as [|c s IH]; simpl; [now left|].
  destruct (is_space c) eqn:E; [exact IH|]. right. now exists c, s.
Qed.

Lemma strip_idem (s : pystr) : strip (strip s) = strip s.
Proof.
  unfold strip. set (t := lstrip s). set (u := lstrip (rev t)).
  assert (Hu : lstrip (rev u) = rev u).
  { destruct u as [|x u'] eqn:Eu; [reflexivity|].
    destruct (lstrip_suffix (rev t)) as [p Hp]. fold u in Hp. rewrite Eu in Hp.
    assert (Ht : t = rev (x :: u') ++ rev p).
    { rewrite <- rev_app_distr, <- Hp. now rewrite rev_involutive. }
    destruct (rev (x :: u')) as [|y w] eqn:Ey.
    - apply (f_equal (@List.length N)) in Ey. rewrite length_rev in Ey. discriminate.
    - destruct (lstrip_head s) as [H0|[c [t' [H1 H2]]]].
      + fold t in H0. rewrite H0 in Ht. discriminate.
      + fold t in H1. rewrite H1 in Ht. simpl in Ht. inversion Ht; subst.
        simpl. now rewrite H2. }
  rewrite Hu, rev_involutive. unfold u. now rewrite lstrip_idem.
Qed.

Lemma order_rows_names (name ts : pystr) (d : draft) :
  Forall (fun r => rec_name r = name) (order_rows name ts d).
Proof.
  rewrite order_rows_filter. apply Forall_forall. intros r Hr.
  apply in_map_iff in Hr as [[[i p] q] [<- _]]. reflexivity.
Qed.

(** Submitting keeps the names of the file stripped: a file whose names
    are all stripped still has only stripped names after any submission,
    since [main] saves [name.strip()]. *)
Theorem submit_keeps_names_stripped (name ts : pystr) (d : draft) (f : csv_file)
  (Hf : names_stripped f) :
  names_stripped (snd (submit name ts d f)).
Proof.
  unfold submit.
  destruct (strip name) as [|c s] eqn:Es; [exact Hf|]. rewrite <- Es.
  destruct d as [|e d']; [exact Hf|].
  assert (Hnew : Forall (fun r => strip (rec_name r) = rec_name r)
                        (order_rows (strip name) ts (e :: d'))).
  { eapply Forall_impl; [|apply order_rows_names].
    intros r Hr. simpl in Hr. rewrite Hr. apply strip_idem. }
  unfold bind at 1, save_order_to_csv.
  destruct (order_rows (strip name) ts (e :: d')) as [|r0 rs0]; [exact Hf|].
  destruct f as [|rs|]; simpl in *.
  - exact Hnew.
  - apply Forall_app. now split.
  - exact I.
Qed.

Lemma submit_keeps_names_stripped_witness :
  names_stripped
    (snd (submit (of_ascii "  Anna ") [] [((of_ascii "Cappuccino", 2.0), 1%Z)]
                 (Csv [sample_record "Mario" "Cornetto" 1.5 1%Z]))).
Proof.
  apply submit_keeps_names_stripped. simpl.
  constructor; [reflexivity | constructor].
Defined.
